(** * A shallow embedding of [src/app.py]

    The program is a Flask application with five routes, a
    [before_request] hook, two error handlers and a start-up block.
    Module-level state of the program ([app_start_time],
    [request_count], the Prometheus collectors), the process environment
    and the logger output are gathered in the record [Globals]; a view is
    a function from that state and the clock values it reads to a new
    state and a response.

    What is outside the model: the wire format, the text produced by
    [render_template_string] and [generate_latest] (their arguments are
    kept instead), the rounding of double-precision arithmetic (clock
    values are the rationals the doubles denote), and the redirects the
    URL map issues for paths with doubled slashes. *)

From Stdlib Require Import ZArith QArith Qround String Ascii List Lia.
From stdpp Require Import base option gmap strings list pretty.

Local Open Scope Z_scope.
Local Open Scope string_scope.

(* ===================================================================== *)
(** ** Python library functions used by the program *)
(* ===================================================================== *)

Module Py.

(** [os.getenv(key, default)] over [os.environ]. *)
Definition getenv (environ : gmap string string) (key default : string)
  : string :=
  match environ !! key with
  | Some v => v
  | None => default
  end.

(** [int(x)] on a float: truncation toward zero. *)
Definition int_of_float (x : Q) : Z := Z.quot (Qnum x) (Zpos (Qden x)).

(** [a % b] on integers: the result has the sign of the divisor. *)
Definition mod_ (a b : Z) : Z := a mod b.

(** [int(s)] on a string, base 10: surrounding whitespace is stripped,
    one sign is allowed, single underscores may separate digits.
    [None] stands for [ValueError].  Only ASCII digits and ASCII
    whitespace are recognised. *)
Definition is_space (a : ascii) : bool :=
  let n := nat_of_ascii a in
  (Nat.eqb n 32 || (Nat.leb 9 n && Nat.leb n 13)
   || (Nat.leb 28 n && Nat.leb n 31))%bool.

Definition digit_of (a : ascii) : option Z :=
  let n := nat_of_ascii a in
  if (Nat.leb 48 n && Nat.leb n 57)%bool then Some (Z.of_nat (n - 48))
  else None.

Fixpoint lstrip (l : list ascii) : list ascii :=
  match l with
  | a :: l' => if is_space a then lstrip l' else l
  | [] => []
  end.

Definition strip (l : list ascii) : list ascii :=
  rev (lstrip (rev (lstrip l))).

(** [digits acc after_digit l]: the value of the digit string [l]
    continued from [acc]; [after_digit] tells whether the previous
    character was a digit (an underscore needs a digit on both sides). *)
Fixpoint digits (acc : Z) (after_digit : bool) (l : list ascii)
  : option Z :=
  match l with
  | [] => if after_digit then Some acc else None
  | a :: l' =>
      match digit_of a with
      | Some d => digits (10 * acc + d) true l'
      | None =>
          if (Nat.eqb (nat_of_ascii a) 95 && after_digit)%bool
          then digits acc false l'
          else None
      end
  end.

Definition int_of_str (s : string) : option Z :=
  match strip (list_ascii_of_string s) with
  | a :: l =>
      if Nat.eqb (nat_of_ascii a) 45 then Z.opp <$> digits 0 false l
      else if Nat.eqb (nat_of_ascii a) 43 then digits 0 false l
      else digits 0 false (a :: l)
  | [] => None
  end.

(** [str(n)] on an integer. *)
Definition str_of_int (n : Z) : string := pretty n.

(** A naive [datetime] value, as [datetime.now()] returns it. *)
Record datetime := {
  year : nat; month : nat; day : nat;
  hour : nat; minute : nat; second : nat; microsecond : nat
}.

(** [%0<w>d]: decimal, left-padded with zeros to width [w]. *)
Fixpoint zeros (k : nat) : string :=
  match k with
  | O => ""
  | S k' => "0" ++ zeros k'
  end.

Definition zfill (w n : nat) : string :=
  let s := pretty n in zeros (w - String.length s) ++ s.

Definition date_part (d : datetime) : string :=
  zfill 4 (year d) ++ "-" ++ zfill 2 (month d) ++ "-" ++ zfill 2 (day d).

Definition time_part (d : datetime) : string :=
  zfill 2 (hour d) ++ ":" ++ zfill 2 (minute d) ++ ":" ++ zfill 2 (second d).

(** [d.strftime('%Y-%m-%d %H:%M:%S')] (years of four digits). *)
Definition strftime (d : datetime) : string :=
  date_part d ++ " " ++ time_part d.

(** [d.isoformat()]: the fraction is printed unless it is zero. *)
Definition isoformat (d : datetime) : string :=
  date_part d ++ "T" ++ time_part d ++
  (if Nat.eqb (microsecond d) 0 then ""
   else "." ++ zfill 6 (microsecond d)).

End Py.

(* ===================================================================== *)
(** ** Requests, responses and the state of the process *)
(* ===================================================================== *)

(** Values that occur in the dictionaries passed to [jsonify] and to
    [render_template_string]. *)
Inductive JValue :=
| JStr (s : string)
| JInt (z : Z)
| JFloat (q : Q).

Inductive ContentType :=
| ApplicationJson       (* jsonify *)
| TextHtml              (* render_template_string, framework pages *)
| CONTENT_TYPE_LATEST.  (* the constant of prometheus_client *)

Inductive Body :=
| BJson (obj : gmap string JValue)
    (* jsonify(obj) *)
| BTemplate (context : gmap string JValue)
    (* render_template_string(html_template, **context); html_template is
       the literal of the source, which reads exactly these variables *)
| BExposition (counters : gmap (string * string) Z) (durations : list Q)
    (* generate_latest() over the collectors of the program *)
| BDefaultPage
    (* the framework's own page for an HTTP exception without handler *)
| BEmpty.

Record Response := {
  status : Z;
  content_type : ContentType;
  body : Body
}.

Record Request := {
  method : string;
  path : string
}.

(** The values a view obtains from the clock: the local wall-clock time
    of [datetime.now()] and the seconds since the epoch of [time.time()].
    Every view calls each of the two at most once. *)
Record Clock := {
  datetime_now : Py.datetime;
  time_time : Q
}.

Inductive Exn :=
| HTTPException (code : Z)     (* werkzeug: NotFound, MethodNotAllowed *)
| Exception (msg : string).    (* anything else *)

Inductive Outcome :=
| Returned (r : Response)
| Raised (e : Exn).

(** A log record: its level and its message.  The message of the 500
    handler is [f"Internal error: {error}"]; the error is kept, not its
    text, which is the framework's. *)
Inductive Level := INFO | ERROR.

Inductive LogMessage :=
| LogText (s : string)
| LogInternalError (error : Exn).

Record Globals := {
  app_start_time : Q;                           (* time.time() at import *)
  request_count : Z;
  REQUEST_COUNT : gmap (string * string) Z;     (* children by labels *)
  REQUEST_DURATION : list Q;                    (* observations *)
  environ : gmap string string;                 (* os.environ *)
  sys_version : string;                         (* os.sys.version *)
  log : list (Level * LogMessage)               (* logger output *)
}.

(* ===================================================================== *)
(** ** The application *)
(* ===================================================================== *)

(** [REQUEST_COUNT.labels(method=m, endpoint=e).inc()]: the child is
    created at zero when it does not exist yet, then one is added. *)
Definition labels_inc (m e : string) (g : Globals) : Globals :=
  {| app_start_time := app_start_time g;
     request_count := request_count g;
     REQUEST_COUNT :=
       <[(m, e) := default 0 (REQUEST_COUNT g !! (m, e)) + 1]>
         (REQUEST_COUNT g);
     REQUEST_DURATION := REQUEST_DURATION g;
     environ := environ g;
     sys_version := sys_version g;
     log := log g |}.

(** [before_request]: [global request_count; request_count += 1]. *)
Definition before_request (g : Globals) : Globals :=
  {| app_start_time := app_start_time g;
     request_count := request_count g + 1;
     REQUEST_COUNT := REQUEST_COUNT g;
     REQUEST_DURATION := REQUEST_DURATION g;
     environ := environ g;
     sys_version := sys_version g;
     log := log g |}.

(** [logger.info(line)] and [logger.error(line)]; the logger is
    configured at level INFO, so both are emitted. *)
Definition logger_emit (lvl : Level) (line : LogMessage) (g : Globals)
  : Globals :=
  {| app_start_time := app_start_time g;
     request_count := request_count g;
     REQUEST_COUNT := REQUEST_COUNT g;
     REQUEST_DURATION := REQUEST_DURATION g;
     environ := environ g;
     sys_version := sys_version g;
     log := log g ++ [(lvl, line)] |}.

Definition logger_info := logger_emit INFO.
Definition logger_error := logger_emit ERROR.

Definition jsonify (code : Z) (obj : gmap string JValue) : Response :=
  {| status := code; content_type := ApplicationJson; body := BJson obj |}.

(** [home], route ['/']. *)
Definition home (g : Globals) (clk : Clock) : Globals * Response :=
  let g := labels_inc "GET" "/" g in
  let current_time := Py.strftime (datetime_now clk) in
  let uptime := (time_time clk - app_start_time g)%Q in
  (g, {| status := 200;
         content_type := TextHtml;
         body := BTemplate (
           <["current_time" := JStr current_time]> (
           <["uptime" := JFloat uptime]> (
           <["request_count" := JInt (request_count g)]> (
           <["branch_name" :=
               JStr (Py.getenv (environ g) "BRANCH_NAME" "main")]> (
           <["environment" :=
               JStr (Py.getenv (environ g) "APP_ENV" "development")]>
           ∅))))) |}).

(** [health], route ['/health']. *)
Definition health (g : Globals) (clk : Clock) : Globals * Response :=
  let g := labels_inc "GET" "/health" g in
  (g, jsonify 200 (
        <["status" := JStr "healthy"]> (
        <["timestamp" := JStr (Py.isoformat (datetime_now clk))]> (
        <["uptime" := JFloat (time_time clk - app_start_time g)%Q]> (
        <["version" := JStr "1.0.0"]> ∅))))).

(** [metrics], route ['/metrics']: the body of the view is the single
    [return]; no counter is touched. *)
Definition metrics (g : Globals) (clk : Clock) : Globals * Response :=
  (g, {| status := 200;
         content_type := CONTENT_TYPE_LATEST;
         body := BExposition (REQUEST_COUNT g) (REQUEST_DURATION g) |}).

(** [api_info], route ['/api/info']. *)
Definition api_info (g : Globals) (clk : Clock) : Globals * Response :=
  let g := labels_inc "GET" "/api/info" g in
  (g, jsonify 200 (
        <["app_name" := JStr "Docker MCP Integration Test"]> (
        <["version" := JStr "1.0.0"]> (
        <["branch" := JStr (Py.getenv (environ g) "BRANCH_NAME" "main")]> (
        <["environment" :=
            JStr (Py.getenv (environ g) "APP_ENV" "development")]> (
        <["container_id" :=
            JStr (Py.getenv (environ g) "HOSTNAME" "unknown")]> (
        <["python_version" := JStr (sys_version g)]> (
        <["start_time" := JFloat (app_start_time g)]> (
        <["current_time" := JFloat (time_time clk)]> ∅))))))))).

(** The expression [int(time.time() * 1000) % 1000], from the value of
    the product. *)
Definition random_number_of (x : Q) : Z := Py.mod_ (Py.int_of_float x) 1000.

(** [api_test], route ['/api/test'].  [time.sleep(0.1)] only delays the
    two clock calls that follow it; [clk] holds what they return. *)
Definition api_test (g : Globals) (clk : Clock) : Globals * Response :=
  let g := labels_inc "GET" "/api/test" g in
  (g, jsonify 200 (
        <["test" := JStr "success"]> (
        <["message" := JStr "API is working correctly"]> (
        <["timestamp" := JStr (Py.isoformat (datetime_now clk))]> (
        <["random_number" :=
            JInt (random_number_of (time_time clk * 1000)%Q)]> ∅))))).

(** [not_found], registered for 404. *)
Definition not_found (g : Globals) (error : Exn) : Globals * Response :=
  (g, jsonify 404 (<["error" := JStr "Not found"]> ∅)).

(** [internal_error], registered for 500. *)
Definition internal_error (g : Globals) (error : Exn) : Globals * Response :=
  let g := logger_error (LogInternalError error) g in
  (g, jsonify 500 (<["error" := JStr "Internal server error"]> ∅)).

(* ===================================================================== *)
(** ** Routing and dispatch, as the decorators set them up *)
(* ===================================================================== *)

Inductive Endpoint :=
| ep_home | ep_health | ep_metrics | ep_api_info | ep_api_test.

(** The rules added by the five [@app.route] decorators, in order. *)
Definition url_map : list (string * Endpoint) :=
  [ ("/", ep_home); ("/health", ep_health); ("/metrics", ep_metrics);
    ("/api/info", ep_api_info); ("/api/test", ep_api_test) ].

Fixpoint match_rule (rules : list (string * Endpoint)) (p : string)
  : option Endpoint :=
  match rules with
  | [] => None
  | (r, ep) :: rules' =>
      if String.eqb r p then Some ep else match_rule rules' p
  end.

Definition view_function (ep : Endpoint)
  : Globals -> Clock -> Globals * Response :=
  match ep with
  | ep_home => home
  | ep_health => health
  | ep_metrics => metrics
  | ep_api_info => api_info
  | ep_api_test => api_test
  end.

(** A route declared without [methods] answers GET; HEAD comes with GET
    and is served by the same view; OPTIONS is answered by the
    framework. *)
Definition options_response : Response :=
  {| status := 200; content_type := TextHtml; body := BEmpty |}.

Definition runs_view (m : string) : bool :=
  (String.eqb m "GET" || String.eqb m "HEAD")%bool.

Definition dispatch_request (g : Globals) (req : Request) (clk : Clock)
  : Globals * Outcome :=
  match match_rule url_map (path req) with
  | None => (g, Raised (HTTPException 404))
  | Some ep =>
      if runs_view (method req)
      then let (g', r) := view_function ep g clk in (g', Returned r)
      else if String.eqb (method req) "OPTIONS"
      then (g, Returned options_response)
      else (g, Raised (HTTPException 405))
  end.

(** The error handlers registered with [@app.errorhandler]: 404 and 500.
    Another HTTP exception is answered with the framework page for its
    code; any other exception goes to the 500 handler. *)
Definition handle_user_exception (g : Globals) (e : Exn)
  : Globals * Response :=
  match e with
  | HTTPException code =>
      if Z.eqb code 404 then not_found g e
      else if Z.eqb code 500 then internal_error g e
      else (g, {| status := code; content_type := TextHtml;
                  body := BDefaultPage |})
  | Exception _ => internal_error g e
  end.

(** Dispatch followed by the error handlers. *)
Definition dispatch_and_handle (g : Globals) (req : Request) (clk : Clock)
  : Globals * Response :=
  match dispatch_request g req clk with
  | (g', Returned r) => (g', r)
  | (g', Raised e) => handle_user_exception g' e
  end.

(** One request through the application: the [before_request] hook,
    then dispatch, then the error handlers. *)
Definition full_dispatch_request (g : Globals) (req : Request) (clk : Clock)
  : Globals * Response :=
  dispatch_and_handle (before_request g) req clk.

(** A sequence of requests served one after the other, each with the
    clock values its view reads. *)
Fixpoint serve (g : Globals) (reqs : list (Request * Clock))
  : Globals * list Response :=
  match reqs with
  | [] => (g, [])
  | (req, clk) :: reqs' =>
      let (g', r) := full_dispatch_request g req clk in
      let (g'', rs) := serve g' reqs' in
      (g'', r :: rs)
  end.

Definition GET (p : string) : Request := {| method := "GET"; path := p |}.

(* ===================================================================== *)
(** ** Start-up: the [if __name__ == '__main__'] block *)
(* ===================================================================== *)

Record RunArgs := {
  host : string;
  port : Z;
  debug : bool
}.

(** [int(os.getenv('PORT', 8000))]: the default is the integer 8000, a
    value found in the environment is a string and is parsed. *)
Definition read_port (env : gmap string string) : option Z :=
  match env !! "PORT" with
  | Some s => Py.int_of_str s
  | None => Some 8000
  end.

(** The block up to the call of [app.run]: the arguments of that call
    and the three lines logged before it; [None] when [int] raises. *)
Definition main (g : Globals) : option (Globals * RunArgs) :=
  match read_port (environ g) with
  | None => None
  | Some port =>
      let debug :=
        String.eqb (Py.getenv (environ g) "APP_ENV" "development")
                   "development" in
      let g := logger_info
                 (LogText ("Starting application on port "
                           ++ Py.str_of_int port)) g in
      let g := logger_info
                 (LogText ("Environment: "
                           ++ Py.getenv (environ g) "APP_ENV" "development"))
                 g in
      let g := logger_info
                 (LogText ("Branch: "
                           ++ Py.getenv (environ g) "BRANCH_NAME" "main"))
                 g in
      Some (g, {| host := "0.0.0.0"; port := port; debug := debug |})
  end.

(* ===================================================================== *)
(** ** Requests served by several threads *)
(* ===================================================================== *)

(** The development server gives every request a thread.  The statement
    [request_count += 1] of [before_request] reads the global, adds one
    and writes the global back; nothing guards it, so another thread may
    run between the read and the write.  The rest of the request (the
    view, whose counter of [prometheus_client] takes a lock for its
    increment, and the error handlers) is taken as one step. *)
Module Threads.

Inductive Pc :=
| AtLoad                 (* about to read request_count *)
| AtStore (tmp : Z)      (* value read; about to write tmp + 1 *)
| AtDispatch             (* hook done; about to dispatch *)
| Done (r : Response).

Record Thread := {
  req : Request;
  clk : Clock;
  pc : Pc
}.

Record Machine := {
  globals : Globals;
  threads : list Thread
}.

Definition at_pc (t : Thread) (p : Pc) : Thread :=
  {| req := req t; clk := clk t; pc := p |}.

Definition store_request_count (v : Z) (g : Globals) : Globals :=
  {| app_start_time := app_start_time g;
     request_count := v;
     REQUEST_COUNT := REQUEST_COUNT g;
     REQUEST_DURATION := REQUEST_DURATION g;
     environ := environ g;
     sys_version := sys_version g;
     log := log g |}.

Definition step_thread (g : Globals) (t : Thread) : Globals * Thread :=
  match pc t with
  | AtLoad => (g, at_pc t (AtStore (request_count g)))
  | AtStore tmp => (store_request_count (tmp + 1) g, at_pc t AtDispatch)
  | AtDispatch =>
      let (g', r) := dispatch_and_handle g (req t) (clk t) in
      (g', at_pc t (Done r))
  | Done _ => (g, t)
  end.

(** The scheduler lets thread [i] take one step. *)
Definition step (m : Machine) (i : nat) : Machine :=
  match threads m !! i with
  | Some t =>
      let (g', t') := step_thread (globals m) t in
      {| globals := g'; threads := <[i := t']> (threads m) |}
  | None => m
  end.

Definition run (m : Machine) (schedule : list nat) : Machine :=
  foldl step m schedule.

(** A thread that has just received its request, and one that has
    answered it. *)
Definition fresh (rc : Request * Clock) : Thread :=
  {| req := rc.1; clk := rc.2; pc := AtLoad |}.

Definition finished (rc : Request * Clock) (r : Response) : Thread :=
  {| req := rc.1; clk := rc.2; pc := Done r |}.

Definition spawn (g : Globals) (reqs : list (Request * Clock)) : Machine :=
  {| globals := g; threads := map fresh reqs |}.

Definition response_of (t : Thread) : option Response :=
  match pc t with
  | Done r => Some r
  | _ => None
  end.

(** The schedule that runs the threads [0 .. n-1] one after the other,
    each to its end. *)
Fixpoint sequential_from (i n : nat) : list nat :=
  match n with
  | O => []
  | S n' => i :: i :: i :: sequential_from (S i) n'
  end.

End Threads.

(* ===================================================================== *)
(** ** The state after import, and sample inputs *)
(* ===================================================================== *)

(** The module body run at import: [app_start_time = time.time()],
    [request_count = 0], collectors without children or observations. *)
Definition initial (start : Q) (env : gmap string string) (version : string)
  : Globals :=
  {| app_start_time := start;
     request_count := 0;
     REQUEST_COUNT := ∅;
     REQUEST_DURATION := [];
     environ := env;
     sys_version := version;
     log := [] |}.

Definition sample_globals : Globals :=
  initial (1700000000 # 1) ∅ "3.11.4 (main)".

Definition sample_datetime : Py.datetime :=
  {| Py.year := 2023; Py.month := 11; Py.day := 14;
     Py.hour := 22; Py.minute := 13; Py.second := 21;
     Py.microsecond := 2500 |}.

(** A clock reading 1.0025 s after the start of [sample_globals]. *)
Definition sample_clock : Clock :=
  {| datetime_now := sample_datetime;
     time_time := 17000000010025 # 10000 |}.

(* ===================================================================== *)
(** ** Predicates used in the statements *)
(* ===================================================================== *)

(** The part of the state that is neither [request_count] nor
    [REQUEST_COUNT]: start time, histogram, environment, interpreter
    version and log are the same in [g'] as in [g]. *)
Definition same_rest (g g' : Globals) : Prop :=
  app_start_time g' = app_start_time g /\
  REQUEST_DURATION g' = REQUEST_DURATION g /\
  environ g' = environ g /\
  sys_version g' = sys_version g /\
  log g' = log g.

(** A thread serves a GET request to [/api/test] and, if it has
    answered, has answered 200. *)
Definition api_test_thread (t : Threads.Thread) : Prop :=
  Threads.req t = GET "/api/test" /\
  forall r, Threads.pc t = Threads.Done r -> status r = 200.


(* ===================================================================== *)
(** ** Counting requests *)
(* ===================================================================== *)




(** Sums over the threads of a machine: [past_store] is 1 for a thread
    that has written [request_count] back, [answered] is 1 for a thread
    that has its response. *)
Definition past_store (t : Threads.Thread) : Z :=
  match Threads.pc t with
  | Threads.AtDispatch | Threads.Done _ => 1
  | _ => 0
  end.

Definition answered (t : Threads.Thread) : Z :=
  match Threads.pc t with
  | Threads.Done _ => 1
  | _ => 0
  end.

Fixpoint total (w : Threads.Thread -> Z) (l : list Threads.Thread) : Z :=
  match l with
  | [] => 0
  | t :: l' => w t + total w l'
  end.

Definition all_answered (m : Threads.Machine) : bool :=
  forallb (fun t => Z.eqb (answered t) 1) (Threads.threads m).

(** What every schedule keeps true of [request_count], started at [c0]:
    it is at least [c0] and at most [c0] plus the number of threads that
    have written it; it is above [c0] once a thread has written it; and
    the value a thread has read and not yet written back is within the
    same bounds. *)
Definition count_inv (c0 : Z) (m : Threads.Machine) : Prop :=
  c0 <= request_count (Threads.globals m)
     <= c0 + total past_store (Threads.threads m) /\
  (0 < total past_store (Threads.threads m) ->
   c0 + 1 <= request_count (Threads.globals m)) /\
  Forall (fun t => forall tmp, Threads.pc t = Threads.AtStore tmp ->
                     c0 <= tmp <= c0 + total past_store (Threads.threads m))
         (Threads.threads m).


(* ===================================================================== *)
(** ** The tests of [tests/test_app.py] *)
(* ===================================================================== *)

(** Each test sends its request to the running application, here in the
    state [g], and checks the response; the result is the state after
    the request and whether every assertion held.  A failed lookup of
    [data[key]] or a body that is no JSON makes the test fail. *)
Module Tests.

(** [response.json()]. *)
Definition json (r : Response) : option (gmap string JValue) :=
  match body r with
  | BJson obj => Some obj
  | _ => None
  end.

(** [assertIn(key, data)]. *)
Definition assertIn (key : string) (data : gmap string JValue) : bool :=
  match data !! key with
  | Some _ => true
  | None => false
  end.

(** [assertEqual(data[key], s)] for a string [s]. *)
Definition assertEqual_str (data : gmap string JValue) (key s : string)
  : bool :=
  match data !! key with
  | Some (JStr v) => String.eqb v s
  | _ => false
  end.

Definition test_health_endpoint (g : Globals) (clk : Clock)
  : Globals * bool :=
  let (g', response) := full_dispatch_request g (GET "/health") clk in
  (g',
   Z.eqb (status response) 200 &&
   match json response with
   | Some data =>
       assertEqual_str data "status" "healthy" &&
       assertIn "timestamp" data &&
       assertIn "uptime" data &&
       assertIn "version" data
   | None => false
   end)%bool.

Definition test_api_info_endpoint (g : Globals) (clk : Clock)
  : Globals * bool :=
  let (g', response) := full_dispatch_request g (GET "/api/info") clk in
  (g',
   Z.eqb (status response) 200 &&
   match json response with
   | Some data =>
       assertIn "app_name" data &&
       assertIn "version" data &&
       assertIn "branch" data &&
       assertIn "environment" data
   | None => false
   end)%bool.

Definition test_api_test_endpoint (g : Globals) (clk : Clock)
  : Globals * bool :=
  let (g', response) := full_dispatch_request g (GET "/api/test") clk in
  (g',
   Z.eqb (status response) 200 &&
   match json response with
   | Some data =>
       assertEqual_str data "test" "success" &&
       assertIn "message" data &&
       assertIn "timestamp" data &&
       assertIn "random_number" data
   | None => false
   end)%bool.

Definition test_404_handling (g : Globals) (clk : Clock) : Globals * bool :=
  let (g', response) := full_dispatch_request g (GET "/nonexistent") clk in
  (g',
   Z.eqb (status response) 404 &&
   match json response with
   | Some data => assertIn "error" data
   | None => false
   end)%bool.

(** [test_concurrent_requests]: twenty requests to [/api/test] handed to
    a pool of threads; [future.result()] waits for each, then every
    status is compared with 200.  The pool runs at most ten at a time;
    the schedules here are those of twenty threads, which include the
    schedules of the pool. *)
Definition make_requests (clks : list Clock) : list (Request * Clock) :=
  map (fun c => (GET "/api/test", c)) clks.

Definition test_concurrent_requests (g : Globals) (clks : list Clock)
           (schedule : list nat) : Globals * bool :=
  let m := Threads.run (Threads.spawn g (make_requests clks)) schedule in
  (Threads.globals m,
   forallb (fun t =>
              match Threads.response_of t with
              | Some response => Z.eqb (status response) 200
              | None => false
              end) (Threads.threads m)).

End Tests.

(* ===================================================================== *)
(** ** Routing lemmas *)
(* ===================================================================== *)

Section Routing.

Context (clk : Clock).



(** A GET request for a path with a rule is answered by the view of
    the rule. *)
Lemma dispatch_and_handle_GET (g : Globals) (p : string) (ep : Endpoint) :
  match_rule url_map p = Some ep ->
  dispatch_and_handle g (GET p) clk = view_function ep g clk.
Proof.
  intros H. unfold dispatch_and_handle, dispatch_request.
  simpl path. rewrite H. simpl method.
  change (runs_view "GET") with true. cbv iota.
  by destruct (view_function ep g clk).
Qed.

(** With the hook in front. *)
Lemma full_dispatch_GET (g : Globals) (p : string) (ep : Endpoint) :
  match_rule url_map p = Some ep ->
  full_dispatch_request g (GET p) clk
  = view_function ep (before_request g) clk.
Proof. apply dispatch_and_handle_GET. Qed.

(** A request for a path without rule runs the hook and then the 404
    handler, whatever its method. *)
Lemma full_dispatch_unmatched (g : Globals) (req : Request) :
  match_rule url_map (path req) = None ->
  full_dispatch_request g req clk
  = not_found (before_request g) (HTTPException 404).
Proof.
  intros H. unfold full_dispatch_request, dispatch_and_handle,
    dispatch_request. by rewrite H.
Qed.

End Routing.

(** [enter_view p ep] replaces a GET request for the path [p] by the
    call of its view after the hook; [lookup_field] reads a key of a
    dictionary written as a chain of insertions. *)
Ltac enter_view p ep :=
  rewrite !(full_dispatch_GET _ _ p ep) by reflexivity.

Ltac lookup_field :=
  rewrite ?lookup_insert_ne by done; apply lookup_insert_eq.

(* ===================================================================== *)
(** ** What the views and handlers leave unchanged *)
(* ===================================================================== *)

Lemma same_rest_refl (g : Globals) : same_rest g g.
Proof. by repeat split. Qed.

Lemma same_rest_trans (g1 g2 g3 : Globals) :
  same_rest g1 g2 -> same_rest g2 g3 -> same_rest g1 g3.
Proof.
  unfold same_rest. intros (?&?&?&?&?) (?&?&?&?&?).
  repeat split; congruence.
Qed.

Lemma labels_inc_lookup (m e : string) (g : Globals) :
  REQUEST_COUNT (labels_inc m e g) !! (m, e)
  = Some (default 0 (REQUEST_COUNT g !! (m, e)) + 1).
Proof. unfold labels_inc; simpl. apply lookup_insert_eq. Qed.

Lemma labels_inc_lookup_ne (m e : string) (k : string * string)
      (g : Globals) :
  k ≠ (m, e) ->
  REQUEST_COUNT (labels_inc m e g) !! k = REQUEST_COUNT g !! k.
Proof. intros H. unfold labels_inc; simpl. by apply lookup_insert_ne. Qed.

(** Every view answers 200, keeps [request_count] and touches nothing
    outside the labelled counters. *)
Lemma view_function_ok (ep : Endpoint) (g : Globals) (clk : Clock) :
  status (view_function ep g clk).2 = 200 /\
  request_count (view_function ep g clk).1 = request_count g /\
  same_rest g (view_function ep g clk).1.
Proof. destruct ep; repeat split. Qed.

(** No request is answered 500: the five views return, and dispatch
    raises only 404 and 405. *)
Lemma no_internal_error (g : Globals) (req : Request) (clk : Clock) :
  status (full_dispatch_request g req clk).2 ≠ 500.
Proof.
  unfold full_dispatch_request, dispatch_and_handle, dispatch_request.
  destruct (match_rule url_map (path req)) as [ep|]; [|done].
  destruct (runs_view (method req)).
  - pose proof (view_function_ok ep (before_request g) clk) as [H _].
    destruct (view_function ep (before_request g) clk) as [g' r].
    simpl in *. by rewrite H.
  - by destruct (String.eqb (method req) "OPTIONS").
Qed.

(* ===================================================================== *)
(** ** The counters on each request *)
(* ===================================================================== *)

(** On the four routes whose view starts with
    [REQUEST_COUNT.labels(...).inc()], a GET request adds one to
    [request_count] and one to the child labelled with the route. *)
Lemma labelled_routes_count (g : Globals) (p : string) (clk : Clock) :
  p ∈ ["/"; "/health"; "/api/info"; "/api/test"] ->
  request_count (full_dispatch_request g (GET p) clk).1
  = request_count g + 1 /\
  REQUEST_COUNT (full_dispatch_request g (GET p) clk).1 !! ("GET", p)
  = Some (default 0 (REQUEST_COUNT g !! ("GET", p)) + 1).
Proof.
  intros Hp. repeat apply elem_of_cons in Hp as [->|Hp];
    [| | | | by apply elem_of_nil in Hp].
  - enter_view "/" ep_home.
    split; [reflexivity | apply (labels_inc_lookup _ _ (before_request g))].
  - enter_view "/health" ep_health.
    split; [reflexivity | apply (labels_inc_lookup _ _ (before_request g))].
  - enter_view "/api/info" ep_api_info.
    split; [reflexivity | apply (labels_inc_lookup _ _ (before_request g))].
  - enter_view "/api/test" ep_api_test.
    split; [reflexivity | apply (labels_inc_lookup _ _ (before_request g))].
Qed.

(** The page of ['/'] shows the value of [request_count] after the hook
    has counted the request itself. *)
Lemma home_shows_incremented_count (g : Globals) (clk : Clock) :
  exists ctx,
    body (full_dispatch_request g (GET "/") clk).2 = BTemplate ctx /\
    ctx !! "request_count" = Some (JInt (request_count g + 1)).
Proof.
  enter_view "/" ep_home.
  eexists; split; [reflexivity|].
  lookup_field.
Qed.

(** C1, at the route where it fails: a GET request to [/metrics] is
    registered and answered 200, the hook adds one to [request_count],
    but the view does not touch [REQUEST_COUNT]: every labelled counter,
    the one of [("GET", "/metrics")] included, is what it was. *)
Theorem metrics_request_skips_labelled_counter (g : Globals) (clk : Clock) :
  match_rule url_map "/metrics" = Some ep_metrics /\
  status (full_dispatch_request g (GET "/metrics") clk).2 = 200 /\
  request_count (full_dispatch_request g (GET "/metrics") clk).1
  = request_count g + 1 /\
  REQUEST_COUNT (full_dispatch_request g (GET "/metrics") clk).1
  = REQUEST_COUNT g.
Proof.
  enter_view "/metrics" ep_metrics.
  by repeat split.
Qed.

(** The same on the state after import: after one GET to [/metrics]
    there is no child labelled [("GET", "/metrics")] at all. *)
Lemma metrics_request_first (start : Q) (env : gmap string string)
      (version : string) (clk : Clock) :
  REQUEST_COUNT
    (full_dispatch_request (initial start env version) (GET "/metrics") clk).1
  !! ("GET", "/metrics") = None.
Proof.
  enter_view "/metrics" ep_metrics.
  apply lookup_empty.
Qed.

(* ===================================================================== *)
(** ** [/health] *)
(* ===================================================================== *)

(** C2: a GET request to [/health] made when the clock is not before
    the start time is answered 200 with a JSON object whose [status] is
    ["healthy"], whose [uptime] is the clock value minus the start time
    and is not negative, and which has [timestamp] and [version]. *)
Theorem health_reports_healthy (g : Globals) (clk : Clock) :
  (app_start_time g <= time_time clk)%Q ->
  status (full_dispatch_request g (GET "/health") clk).2 = 200 /\
  exists obj,
    body (full_dispatch_request g (GET "/health") clk).2 = BJson obj /\
    obj !! "status" = Some (JStr "healthy") /\
    obj !! "uptime" = Some (JFloat (time_time clk - app_start_time g)%Q) /\
    (0 <= time_time clk - app_start_time g)%Q /\
    is_Some (obj !! "timestamp") /\
    is_Some (obj !! "version").
Proof.
  intros Hle.
  enter_view "/health" ep_health.
  split; [reflexivity|].
  eexists; split; [reflexivity|].
  split_and!.
  - lookup_field.
  - lookup_field.
  - by apply Qle_minus_iff in Hle.
  - rewrite lookup_insert_ne by done. rewrite lookup_insert_eq. by eexists.
  - rewrite !lookup_insert_ne by done. rewrite lookup_insert_eq. by eexists.
Qed.

Lemma health_reports_healthy_witness :
  status (full_dispatch_request sample_globals (GET "/health")
            sample_clock).2 = 200 /\
  exists obj,
    body (full_dispatch_request sample_globals (GET "/health")
            sample_clock).2 = BJson obj /\
    obj !! "status" = Some (JStr "healthy") /\
    obj !! "uptime"
    = Some (JFloat (time_time sample_clock
                    - app_start_time sample_globals)%Q) /\
    (0 <= time_time sample_clock - app_start_time sample_globals)%Q /\
    is_Some (obj !! "timestamp") /\
    is_Some (obj !! "version").
Proof.
  apply (health_reports_healthy sample_globals sample_clock).
  unfold Qle; simpl; lia.
Defined.

(* ===================================================================== *)
(** ** [/api/test] *)
(* ===================================================================== *)

(** Whatever the value of the product, also after rounding, the
    remainder is between 0 and 999: [%] takes the sign of the divisor. *)
Lemma random_number_of_range (x : Q) : 0 <= random_number_of x <= 999.
Proof.
  unfold random_number_of, Py.mod_.
  pose proof (Z.mod_pos_bound (Py.int_of_float x) 1000). lia.
Qed.




(** The sample clock reads 1700000001.0025 s, whose milliseconds are 2. *)
Example api_test_sample_value :
  random_number_of (time_time sample_clock * 1000)%Q = 2.
Proof. reflexivity. Qed.

(* ===================================================================== *)
(** ** Requests that end in an error response *)
(* ===================================================================== *)






(* ===================================================================== *)
(** ** Environment variables *)
(* ===================================================================== *)

Lemma getenv_unset (env : gmap string string) (key default : string) :
  env !! key = None -> Py.getenv env key default = default.
Proof. unfold Py.getenv. by intros ->. Qed.

Lemma getenv_set (env : gmap string string) (key default v : string) :
  env !! key = Some v -> Py.getenv env key default = v.
Proof. unfold Py.getenv. by intros ->. Qed.

(** What start-up logs and passes on, once the port has been read. *)
Lemma main_Some (g : Globals) (p : Z) :
  read_port (environ g) = Some p ->
  exists g' args,
    main g = Some (g', args) /\
    port args = p /\ host args = "0.0.0.0" /\
    debug args
    = String.eqb (Py.getenv (environ g) "APP_ENV" "development")
                 "development" /\
    log g'
    = app (log g)
        [ (INFO, LogText ("Starting application on port "
                          ++ Py.str_of_int p));
          (INFO, LogText ("Environment: "
                          ++ Py.getenv (environ g) "APP_ENV" "development"));
          (INFO, LogText ("Branch: "
                          ++ Py.getenv (environ g) "BRANCH_NAME" "main")) ].
Proof.
  intros H. unfold main. rewrite H. eexists _, _.
  split; [reflexivity|]. split_and!; try reflexivity.
  simpl. by rewrite <- !app_assoc.
Qed.

(** C7: a variable that is not in the environment takes its default
    wherever the program reads it.  Without [PORT], start-up gets as far
    as [app.run] and passes port 8000.  Without [BRANCH_NAME], the page
    of ['/'] and the answer of [/api/info] carry ["main"], and so does
    the line start-up logs.  Without [APP_ENV], the same holds with
    ["development"], and start-up turns debugging on. *)
Theorem unset_variables_take_defaults (g : Globals) (clk : Clock) :
  (environ g !! "PORT" = None ->
   exists g' args, main g = Some (g', args) /\ port args = 8000) /\
  (environ g !! "BRANCH_NAME" = None ->
   (exists ctx,
      body (full_dispatch_request g (GET "/") clk).2 = BTemplate ctx /\
      ctx !! "branch_name" = Some (JStr "main")) /\
   (exists obj,
      body (full_dispatch_request g (GET "/api/info") clk).2 = BJson obj /\
      obj !! "branch" = Some (JStr "main")) /\
   (forall g' args,
      main g = Some (g', args) -> (INFO, LogText "Branch: main") ∈ log g')) /\
  (environ g !! "APP_ENV" = None ->
   (exists ctx,
      body (full_dispatch_request g (GET "/") clk).2 = BTemplate ctx /\
      ctx !! "environment" = Some (JStr "development")) /\
   (exists obj,
      body (full_dispatch_request g (GET "/api/info") clk).2 = BJson obj /\
      obj !! "environment" = Some (JStr "development")) /\
   (forall g' args,
      main g = Some (g', args) ->
      debug args = true /\
      (INFO, LogText "Environment: development") ∈ log g')).
Proof.
  split_and!.
  - intros H.
    destruct (main_Some g 8000) as (g' & args & Hm & Hp & _).
    { unfold read_port. by rewrite H. }
    by exists g', args.
  - intros H. split_and!.
    + enter_view "/" ep_home.
      eexists; split; [reflexivity|].
      rewrite !lookup_insert_ne by done. rewrite lookup_insert_eq.
      simpl environ. by rewrite (getenv_unset _ _ _ H).
    + enter_view "/api/info" ep_api_info.
      eexists; split; [reflexivity|].
      rewrite !lookup_insert_ne by done. rewrite lookup_insert_eq.
      simpl environ. by rewrite (getenv_unset _ _ _ H).
    + intros g' args Hm. unfold main in Hm.
      destruct (read_port (environ g)) as [p|]; [|done].
      injection Hm as <- _. simpl.
      rewrite (getenv_unset _ _ _ H).
      rewrite !elem_of_app, !list_elem_of_singleton. by right.
  - intros H. split_and!.
    + enter_view "/" ep_home.
      eexists; split; [reflexivity|].
      rewrite !lookup_insert_ne by done. rewrite lookup_insert_eq.
      simpl environ. by rewrite (getenv_unset _ _ _ H).
    + enter_view "/api/info" ep_api_info.
      eexists; split; [reflexivity|].
      rewrite !lookup_insert_ne by done. rewrite lookup_insert_eq.
      simpl environ. by rewrite (getenv_unset _ _ _ H).
    + intros g' args Hm. unfold main in Hm.
      destruct (read_port (environ g)) as [p|]; [|done].
      injection Hm as <- <-. simpl.
      rewrite (getenv_unset _ _ _ H). split; [reflexivity|].
      rewrite !elem_of_app, !list_elem_of_singleton. left; by right.
Qed.

Lemma unset_variables_take_defaults_witness :
  (exists g' args, main sample_globals = Some (g', args) /\ port args = 8000) /\
  ((exists ctx,
      body (full_dispatch_request sample_globals (GET "/") sample_clock).2
      = BTemplate ctx /\
      ctx !! "branch_name" = Some (JStr "main")) /\
   (exists obj,
      body (full_dispatch_request sample_globals (GET "/api/info")
              sample_clock).2 = BJson obj /\
      obj !! "branch" = Some (JStr "main")) /\
   (forall g' args,
      main sample_globals = Some (g', args) ->
      (INFO, LogText "Branch: main") ∈ log g')) /\
  ((exists ctx,
      body (full_dispatch_request sample_globals (GET "/") sample_clock).2
      = BTemplate ctx /\
      ctx !! "environment" = Some (JStr "development")) /\
   (exists obj,
      body (full_dispatch_request sample_globals (GET "/api/info")
              sample_clock).2 = BJson obj /\
      obj !! "environment" = Some (JStr "development")) /\
   (forall g' args,
      main sample_globals = Some (g', args) ->
      debug args = true /\
      (INFO, LogText "Environment: development") ∈ log g')).
Proof.
  destruct (unset_variables_take_defaults sample_globals sample_clock)
    as (Hport & Hbranch & Henv).
  split; [|split]; [apply Hport | apply Hbranch | apply Henv]; reflexivity.
Defined.

(** A value found in the environment is used instead: the port is
    parsed from the string, and a string that is no number stops
    start-up with the error of [int]. *)
Example read_port_set : read_port {[ "PORT" := "8080" ]} = Some 8080.
Proof. reflexivity. Qed.

Example main_bad_port :
  main (initial 0 {[ "PORT" := "http" ]} "") = None.
Proof. reflexivity. Qed.

(* ===================================================================== *)
(** ** [/api/info] *)
(* ===================================================================== *)


(** With the three variables set, their values are what is reported. *)
Example api_info_from_environment :
  let env : gmap string string :=
    {[ "BRANCH_NAME" := "feature/x"; "APP_ENV" := "production";
       "HOSTNAME" := "3f2a9c1d7b44" ]} in
  exists obj,
    body (full_dispatch_request (initial 5 env "3.11") (GET "/api/info")
            sample_clock).2 = BJson obj /\
    obj !! "branch" = Some (JStr "feature/x") /\
    obj !! "environment" = Some (JStr "production") /\
    obj !! "container_id" = Some (JStr "3f2a9c1d7b44").
Proof. eexists. split_and!; reflexivity. Qed.

(* ===================================================================== *)
(** ** [/api/test] depends on the clock only *)
(* ===================================================================== *)

(** C10: two GET requests to [/api/test] whose views read the same clock
    values get the same response, whatever the state of the process
    (counters, environment, start time) at either request: status,
    content type and every field of the body agree. *)
Theorem api_test_depends_on_clock_only (g1 g2 : Globals) (clk : Clock) :
  (full_dispatch_request g1 (GET "/api/test") clk).2
  = (full_dispatch_request g2 (GET "/api/test") clk).2.
Proof.
  enter_view "/api/test" ep_api_test. reflexivity.
Qed.

(** The body is this function of the clock values. *)
Lemma api_test_body (g : Globals) (clk : Clock) :
  body (full_dispatch_request g (GET "/api/test") clk).2
  = BJson (<["test" := JStr "success"]> (
           <["message" := JStr "API is working correctly"]> (
           <["timestamp" := JStr (Py.isoformat (datetime_now clk))]> (
           <["random_number" :=
               JInt (random_number_of (time_time clk * 1000)%Q)]> ∅)))).
Proof.
  enter_view "/api/test" ep_api_test. reflexivity.
Qed.

(* ===================================================================== *)
(** ** Sequences of requests *)
(* ===================================================================== *)

(** Every request, matched or not, is counted once by the hook, and
    nothing else writes [request_count]; nothing at all writes the start
    time, the histogram, the environment or the log. *)
Lemma full_dispatch_counts (g : Globals) (req : Request) (clk : Clock) :
  request_count (full_dispatch_request g req clk).1 = request_count g + 1 /\
  same_rest g (full_dispatch_request g req clk).1.
Proof.
  unfold full_dispatch_request, dispatch_and_handle, dispatch_request.
  destruct (match_rule url_map (path req)) as [ep|]; [|by repeat split].
  destruct (runs_view (method req)).
  - pose proof (view_function_ok ep (before_request g) clk) as (_ & Hc & Hr).
    destruct (view_function ep (before_request g) clk) as [g' r].
    simpl in *. split; [by rewrite Hc|].
    apply (same_rest_trans _ (before_request g)); [by repeat split | done].
  - by destruct (String.eqb (method req) "OPTIONS"); repeat split.
Qed.

Lemma serve_cons (g : Globals) (req : Request) (clk : Clock)
      (reqs : list (Request * Clock)) :
  serve g ((req, clk) :: reqs)
  = ((serve (full_dispatch_request g req clk).1 reqs).1,
     (full_dispatch_request g req clk).2
     :: (serve (full_dispatch_request g req clk).1 reqs).2).
Proof.
  simpl. destruct (full_dispatch_request g req clk) as [g' r]; simpl.
  by destruct (serve g' reqs).
Qed.

Lemma serve_counts (reqs : list (Request * Clock)) (g : Globals) :
  request_count (serve g reqs).1 = request_count g + Z.of_nat (length reqs) /\
  same_rest g (serve g reqs).1 /\
  length (serve g reqs).2 = length reqs.
Proof.
  revert g. induction reqs as [|[req clk] reqs IH]; intros g.
  - simpl. split_and!; [lia | apply same_rest_refl | done].
  - rewrite serve_cons; simpl fst; simpl snd.
    destruct (full_dispatch_counts g req clk) as [Hc Hr].
    destruct (IH (full_dispatch_request g req clk).1) as (IHc & IHr & IHl).
    split_and!.
    + rewrite IHc, Hc. simpl length. lia.
    + by apply (same_rest_trans _ (full_dispatch_request g req clk).1).
    + simpl. by rewrite IHl.
Qed.

(** One GET request to ['/'] or [/health]: answered 200, and the only
    labelled counter written is the one of the route. *)
Lemma home_health_step (g : Globals) (p : string) (clk : Clock) :
  p = "/" \/ p = "/health" ->
  status (full_dispatch_request g (GET p) clk).2 = 200 /\
  forall k, k ≠ ("GET", "/") -> k ≠ ("GET", "/health") ->
    REQUEST_COUNT (full_dispatch_request g (GET p) clk).1 !! k
    = REQUEST_COUNT g !! k.
Proof.
  intros [-> | ->].
  - enter_view "/" ep_home.
    split; [reflexivity|]. intros k Hk _.
    by apply (labels_inc_lookup_ne _ _ k (before_request g)).
  - enter_view "/health" ep_health.
    split; [reflexivity|]. intros k _ Hk.
    by apply (labels_inc_lookup_ne _ _ k (before_request g)).
Qed.

(** C9: in any sequence of GET requests to ['/'] and [/health], every
    request is answered 200, and the state after the sequence differs
    from the state before it only in [request_count] and in the two
    labelled counters of these routes: the start time, the environment,
    the histogram, the log and every other labelled counter, present or
    absent, are as they were. *)
Theorem home_health_only_touch_counters (g : Globals)
        (reqs : list (Request * Clock)) :
  Forall (fun rc => rc.1 = GET "/" \/ rc.1 = GET "/health") reqs ->
  Forall (fun r => status r = 200) (serve g reqs).2 /\
  length (serve g reqs).2 = length reqs /\
  request_count (serve g reqs).1 = request_count g + Z.of_nat (length reqs) /\
  same_rest g (serve g reqs).1 /\
  forall k, k ≠ ("GET", "/") -> k ≠ ("GET", "/health") ->
    REQUEST_COUNT (serve g reqs).1 !! k = REQUEST_COUNT g !! k.
Proof.
  intros Hreqs.
  destruct (serve_counts reqs g) as (Hc & Hr & Hl).
  split_and!; [|done|done|done|].
  - clear Hc Hr Hl. revert g.
    induction Hreqs as [|[req clk] reqs Hreq _ IH]; intros g; [by constructor|].
    rewrite serve_cons; simpl snd. constructor; [|apply IH].
    destruct req as [m p]. simpl in Hreq.
    destruct Hreq as [[= -> ->] | [= -> ->]];
      [apply (home_health_step g "/") | apply (home_health_step g "/health")];
      auto.
  - clear Hc Hr Hl. revert g.
    induction Hreqs as [|[req clk] reqs Hreq _ IH]; intros g k Hk1 Hk2; [done|].
    rewrite serve_cons; simpl fst. rewrite IH by done.
    destruct req as [m p]. simpl in Hreq.
    destruct Hreq as [[= -> ->] | [= -> ->]];
      [apply (home_health_step g "/") | apply (home_health_step g "/health")];
      auto.
Qed.

Lemma home_health_only_touch_counters_witness :
  let reqs := [ (GET "/", sample_clock); (GET "/health", sample_clock);
                (GET "/", sample_clock) ] in
  Forall (fun r => status r = 200) (serve sample_globals reqs).2 /\
  length (serve sample_globals reqs).2 = length reqs /\
  request_count (serve sample_globals reqs).1
  = request_count sample_globals + Z.of_nat (length reqs) /\
  same_rest sample_globals (serve sample_globals reqs).1 /\
  forall k, k ≠ ("GET", "/") -> k ≠ ("GET", "/health") ->
    REQUEST_COUNT (serve sample_globals reqs).1 !! k
    = REQUEST_COUNT sample_globals !! k.
Proof.
  apply (home_health_only_touch_counters sample_globals).
  constructor; [by left|]. constructor; [by right|].
  constructor; [by left|]. constructor.
Defined.

(* ===================================================================== *)
(** ** Requests served by several threads *)
(* ===================================================================== *)

Section Concurrent.

Import Threads.
Local Open Scope list_scope.

Lemma insert_middle (pre post : list Thread) (t t' : Thread) :
  <[length pre := t']> (pre ++ t :: post) = pre ++ t' :: post.
Proof.
  rewrite insert_app_r_alt by done. by rewrite Nat.sub_diag.
Qed.

Lemma step_middle (g : Globals) (pre post : list Thread) (t : Thread) :
  step {| globals := g; threads := pre ++ t :: post |} (length pre)
  = {| globals := (step_thread g t).1;
       threads := pre ++ (step_thread g t).2 :: post |}.
Proof.
  unfold step; simpl. rewrite list_lookup_middle by done.
  destruct (step_thread g t) as [g' t']; simpl.
  by rewrite insert_middle.
Qed.

(** A thread that is not interrupted does what
    [full_dispatch_request] does. *)
Lemma three_steps_alone (g : Globals) (rc : Request * Clock)
      (pre post : list Thread) :
  run {| globals := g; threads := pre ++ fresh rc :: post |}
      [length pre; length pre; length pre]
  = {| globals := (full_dispatch_request g rc.1 rc.2).1;
       threads :=
         pre ++ finished rc (full_dispatch_request g rc.1 rc.2).2
             :: post |}.
Proof.
  unfold run, foldl. rewrite !step_middle.
  unfold full_dispatch_request. simpl.
  change (store_request_count (request_count g + 1) g)
    with (before_request g).
  unfold step_thread; simpl.
  by destruct (dispatch_and_handle (before_request g) rc.1 rc.2).
Qed.

Lemma run_app (m : Machine) (s1 s2 : list nat) :
  run m (s1 ++ s2) = run (run m s1) s2.
Proof. apply foldl_app. Qed.

(** Threads that run one after the other leave the state and the
    responses of [serve]. *)
Lemma run_sequential (reqs : list (Request * Clock)) (g : Globals)
      (pre : list Thread) :
  run {| globals := g; threads := pre ++ map fresh reqs |}
      (sequential_from (length pre) (length reqs))
  = {| globals := (serve g reqs).1;
       threads := pre ++ zip_with finished reqs (serve g reqs).2 |}.
Proof.
  revert g pre. induction reqs as [|[req c] reqs IH]; intros g pre; [done|].
  simpl map. simpl length. simpl sequential_from.
  change (length pre :: length pre :: length pre
          :: sequential_from (S (length pre)) (length reqs))
    with ([length pre; length pre; length pre]
          ++ sequential_from (S (length pre)) (length reqs)).
  rewrite serve_cons, run_app, three_steps_alone.
  simpl fst; simpl snd. simpl zip_with.
  specialize (IH (full_dispatch_request g req c).1
                 (pre ++ [finished (req, c)
                            (full_dispatch_request g req c).2])).
  rewrite length_app in IH. simpl in IH.
  rewrite Nat.add_1_r, <- !app_assoc in IH. exact IH.
Qed.

(** So without interleaving no increment is lost: after [n] requests
    the counter is [n] more. *)
Lemma sequential_requests_all_counted (g : Globals)
      (reqs : list (Request * Clock)) :
  request_count
    (globals (run (spawn g reqs) (sequential_from 0 (length reqs))))
  = request_count g + Z.of_nat (length reqs).
Proof.
  pose proof (run_sequential reqs g []) as H. simpl in H.
  unfold spawn. rewrite H. simpl. apply serve_counts.
Qed.

(** Under every schedule, a request to [/api/test] that has been
    answered has been answered 200. *)
Lemma step_thread_api_test (g : Globals) (t : Thread) :
  api_test_thread t -> api_test_thread (step_thread g t).2.
Proof.
  intros [Hreq Hdone]. unfold step_thread.
  destruct (pc t) as [|tmp| |r] eqn:Hpc.
  - split; [done | intros r; discriminate].
  - split; [done | intros r; discriminate].
  - rewrite Hreq.
    rewrite (dispatch_and_handle_GET (clk t) g "/api/test" ep_api_test)
      by reflexivity.
    split; [done|]. by intros r [= <-].
  - simpl. split; [exact Hreq | by rewrite Hpc].
Qed.

Lemma run_api_test (schedule : list nat) (m : Machine) :
  Forall api_test_thread (threads m) ->
  Forall api_test_thread (threads (run m schedule)).
Proof.
  revert m. induction schedule as [|i schedule IH]; intros m Hm; [done|].
  apply IH. unfold step.
  destruct (threads m !! i) as [t|] eqn:Ht; [|done].
  pose proof (step_thread_api_test (globals m) t
                (proj1 (Forall_lookup _ _) Hm i t Ht)) as Ht'.
  destruct (step_thread (globals m) t) as [g' t']. simpl in *.
  by apply Forall_insert.
Qed.

Lemma concurrent_api_test_all_200 (g : Globals) (clks : list Clock)
      (schedule : list nat) (i : nat) (t : Thread) (r : Response) :
  threads (run (spawn g (map (fun c => (GET "/api/test", c)) clks))
               schedule) !! i = Some t ->
  pc t = Done r -> status r = 200.
Proof.
  intros Ht Hr.
  assert (api_test_thread t) as [_ H]; [|by apply H].
  refine (proj1 (Forall_lookup _ _) (run_api_test schedule _ _) i t Ht).
  unfold spawn; simpl. rewrite Forall_map, Forall_map.
  apply Forall_true. intros c. split; [done | intros r'; discriminate].
Qed.

(** C6, at an interleaving where it fails.  Two threads serve a GET
    request to [/api/test] each.  Both read [request_count] before
    either writes it back; then each writes the value it read plus
    one and serves its request.  Both requests are answered 200, the
    labelled counter, whose increment is guarded, has gone up by two,
    and [request_count] has gone up by one. *)
Theorem concurrent_increment_lost (g : Globals) (clk1 clk2 : Clock) :
  exists r1 r2,
    response_of <$>
      threads (run (spawn g [ (GET "/api/test", clk1);
                              (GET "/api/test", clk2) ])
                   [0; 1; 0; 1; 0; 1]%nat)
    = [Some r1; Some r2] /\
    status r1 = 200 /\ status r2 = 200 /\
    REQUEST_COUNT
      (globals (run (spawn g [ (GET "/api/test", clk1);
                               (GET "/api/test", clk2) ])
                    [0; 1; 0; 1; 0; 1]%nat))
    !! ("GET", "/api/test")
    = Some (default 0 (REQUEST_COUNT g !! ("GET", "/api/test")) + 2) /\
    request_count
      (globals (run (spawn g [ (GET "/api/test", clk1);
                               (GET "/api/test", clk2) ])
                    [0; 1; 0; 1; 0; 1]%nat))
    = request_count g + 1.
Proof.
  eexists _, _. split_and!; try reflexivity.
  change (REQUEST_COUNT
            (labels_inc "GET" "/api/test"
               (labels_inc "GET" "/api/test"
                  (store_request_count (request_count g + 1)
                     (store_request_count (request_count g + 1) g))))
          !! ("GET", "/api/test")
          = Some (default 0 (REQUEST_COUNT g !! ("GET", "/api/test")) + 2)).
  rewrite !labels_inc_lookup. simpl. f_equal. lia.
Qed.

End Concurrent.

(* ===================================================================== *)
(** ** What the counters count *)
(* ===================================================================== *)








(* ===================================================================== *)
(** ** The request count and the page of ['/'] *)
(* ===================================================================== *)



(* ===================================================================== *)
(** ** Statuses and content types *)
(* ===================================================================== *)





(** X5: a GET request to each of the five routes is answered 200 with
    the content type of its kind: the page of ['/'] is HTML from the
    template, [/metrics] is the exposition with the content type of
    the metrics library, and [/health], [/api/info] and [/api/test] are
    JSON objects. *)
Theorem routes_answer_with_their_type (g : Globals) (clk : Clock)
        (p : string) (ep : Endpoint) :
  match_rule url_map p = Some ep ->
  status (full_dispatch_request g (GET p) clk).2 = 200 /\
  match ep with
  | ep_home =>
      content_type (full_dispatch_request g (GET p) clk).2 = TextHtml /\
      exists ctx, body (full_dispatch_request g (GET p) clk).2 = BTemplate ctx
  | ep_metrics =>
      content_type (full_dispatch_request g (GET p) clk).2
      = CONTENT_TYPE_LATEST /\
      exists cs ds,
        body (full_dispatch_request g (GET p) clk).2 = BExposition cs ds
  | _ =>
      content_type (full_dispatch_request g (GET p) clk).2
      = ApplicationJson /\
      exists obj, body (full_dispatch_request g (GET p) clk).2 = BJson obj
  end.
Proof.
  intros H. rewrite (full_dispatch_GET clk g p ep H).
  destruct ep; (split; [reflexivity|]); (split; [reflexivity|]);
    eexists; try eexists; reflexivity.
Qed.

Lemma routes_answer_with_their_type_witness :
  status (full_dispatch_request sample_globals (GET "/metrics")
            sample_clock).2 = 200 /\
  content_type (full_dispatch_request sample_globals (GET "/metrics")
                  sample_clock).2 = CONTENT_TYPE_LATEST /\
  exists cs ds,
    body (full_dispatch_request sample_globals (GET "/metrics")
            sample_clock).2 = BExposition cs ds.
Proof.
  apply (routes_answer_with_their_type sample_globals sample_clock
           "/metrics" ep_metrics).
  reflexivity.
Defined.

(* ===================================================================== *)
(** ** The page of ['/'] and the clock *)
(* ===================================================================== *)


(** X7: nothing guards the subtraction in [/health].  When the clock
    reads less than the recorded start time (the system clock was set
    back), the request is still answered 200 with status ["healthy"],
    and the reported [uptime] is negative. *)
Theorem health_uptime_negative_after_clock_step_back (g : Globals)
        (clk : Clock) :
  (time_time clk < app_start_time g)%Q ->
  status (full_dispatch_request g (GET "/health") clk).2 = 200 /\
  exists obj uptime,
    body (full_dispatch_request g (GET "/health") clk).2 = BJson obj /\
    obj !! "status" = Some (JStr "healthy") /\
    obj !! "uptime" = Some (JFloat uptime) /\
    (uptime < 0)%Q.
Proof.
  intros Hlt. enter_view "/health" ep_health.
  split; [reflexivity|]. eexists _, _. split; [reflexivity|]. split_and!.
  - lookup_field.
  - lookup_field.
  - simpl. apply Qlt_minus_iff in Hlt. apply Qlt_minus_iff.
    setoid_replace (0 + - (time_time clk - app_start_time g))%Q
      with (app_start_time g + - time_time clk)%Q using relation Qeq
      by ring.
    exact Hlt.
Qed.

Lemma health_uptime_negative_after_clock_step_back_witness :
  status (full_dispatch_request sample_globals (GET "/health")
            {| datetime_now := sample_datetime; time_time := 5 |}).2 = 200 /\
  exists obj uptime,
    body (full_dispatch_request sample_globals (GET "/health")
            {| datetime_now := sample_datetime; time_time := 5 |}).2
    = BJson obj /\
    obj !! "status" = Some (JStr "healthy") /\
    obj !! "uptime" = Some (JFloat uptime) /\
    (uptime < 0)%Q.
Proof.
  apply (health_uptime_negative_after_clock_step_back sample_globals
           {| datetime_now := sample_datetime; time_time := 5 |}).
  unfold Qlt; simpl; lia.
Defined.

(** X8: for every clock value, negative ones included, the field
    [random_number] of [/api/test] is an integer from 0 to 999: [int]
    rounds toward zero and [%] takes the sign of the divisor, so no
    negative remainder appears. *)
Theorem api_test_random_number_any_clock (g : Globals) (clk : Clock) :
  exists obj n,
    body (full_dispatch_request g (GET "/api/test") clk).2 = BJson obj /\
    obj !! "random_number" = Some (JInt n) /\
    0 <= n <= 999.
Proof.
  enter_view "/api/test" ep_api_test.
  eexists _, _. split; [reflexivity|]. split.
  - lookup_field.
  - apply random_number_of_range.
Qed.

(* ===================================================================== *)
(** ** Reading the port *)
(* ===================================================================== *)

Section IntOfStr.










End IntOfStr.

(* ===================================================================== *)
(** ** Start-up *)
(* ===================================================================== *)





(** X11: debugging is on unless [APP_ENV] says otherwise.  When
    start-up reaches [app.run], the flag [debug] is true exactly when
    [APP_ENV] is unset or is the string ["development"]; the
    comparison is exact, so any other spelling turns it off. *)
Theorem main_debug_flag (g g' : Globals) (args : RunArgs) :
  main g = Some (g', args) ->
  debug args = true <->
  environ g !! "APP_ENV" = None \/
  environ g !! "APP_ENV" = Some "development".
Proof.
  unfold main. destruct (read_port (environ g)) as [p|]; [|done].
  intros [= _ <-]. simpl. unfold Py.getenv.
  destruct (environ g !! "APP_ENV") as [v|].
  - rewrite String.eqb_eq. split; [intros ->; by right|].
    by intros [[=]|[= ->]].
  - split; [by left | done].
Qed.

Lemma main_debug_flag_witness :
  debug {| host := "0.0.0.0"; port := 8000; debug := false |} = true <->
  environ (initial 0 {[ "APP_ENV" := "Development" ]} "") !! "APP_ENV"
  = None \/
  environ (initial 0 {[ "APP_ENV" := "Development" ]} "") !! "APP_ENV"
  = Some "development".
Proof.
  eapply (main_debug_flag (initial 0 {[ "APP_ENV" := "Development" ]} "")).
  reflexivity.
Defined.

(** X12: start-up changes nothing but the log, to which it adds three
    records of level INFO, and it always binds to ["0.0.0.0"]; the
    counters and the environment that the requests will see are those
    of the import. *)
Theorem main_only_logs (g g' : Globals) (args : RunArgs) :
  main g = Some (g', args) ->
  host args = "0.0.0.0" /\
  request_count g' = request_count g /\
  REQUEST_COUNT g' = REQUEST_COUNT g /\
  REQUEST_DURATION g' = REQUEST_DURATION g /\
  environ g' = environ g /\
  app_start_time g' = app_start_time g /\
  exists l1 l2 l3,
    log g' = app (log g) [(INFO, l1); (INFO, l2); (INFO, l3)].
Proof.
  unfold main. destruct (read_port (environ g)) as [p|]; [|done].
  intros [= <- <-]. split_and!; try reflexivity.
  eexists _, _, _. simpl. by rewrite <- !app_assoc.
Qed.

Lemma main_only_logs_witness :
  exists g' args,
    main sample_globals = Some (g', args) /\
    host args = "0.0.0.0" /\
    request_count g' = request_count sample_globals /\
    log g' = [ (INFO, LogText "Starting application on port 8000");
               (INFO, LogText "Environment: development");
               (INFO, LogText "Branch: main") ].
Proof.
  destruct (main sample_globals) as [[g' args]|] eqn:Hm; [|discriminate Hm].
  exists g', args.
  destruct (main_only_logs sample_globals g' args Hm) as (Hh & Hc & _).
  split_and!; [done | done | done |].
  vm_compute in Hm. by injection Hm as <- _.
Defined.

(* ===================================================================== *)
(** ** Every schedule of the threads *)
(* ===================================================================== *)

Section Schedules.

Import Threads.
Local Open Scope list_scope.

Lemma total_insert (w : Thread -> Z) (l : list Thread) (i : nat)
      (t t' : Thread) :
  l !! i = Some t -> total w (<[i := t']> l) = total w l - w t + w t'.
Proof.
  revert i. induction l as [|a l IH]; intros [|i] H; simpl in *;
    try discriminate H.
  - injection H as ->. lia.
  - rewrite (IH i H). lia.
Qed.

Lemma total_answered_all (l : list Thread) :
  forallb (fun t => Z.eqb (answered t) 1) l = true ->
  total answered l = Z.of_nat (length l) /\
  total past_store l = Z.of_nat (length l).
Proof.
  induction l as [|t l IH]; simpl; [done|].
  intros H. apply andb_prop in H as [Ht Hl]. destruct (IH Hl) as [IH1 IH2].
  unfold answered, past_store in *. destruct (pc t); try discriminate Ht.
  lia.
Qed.

Lemma run_length (schedule : list nat) (m : Machine) :
  length (threads (run m schedule)) = length (threads m).
Proof.
  revert m. induction schedule as [|i schedule IH]; intros m; [done|].
  simpl. rewrite IH. unfold step.
  destruct (threads m !! i) as [t|]; [|done].
  destruct (step_thread (globals m) t). simpl. apply length_insert.
Qed.

Lemma dispatch_and_handle_request_count (g : Globals) (rq : Request)
      (c : Clock) :
  request_count (dispatch_and_handle g rq c).1 = request_count g.
Proof.
  unfold dispatch_and_handle, dispatch_request.
  destruct (match_rule url_map (path rq)) as [ep|]; [|done].
  destruct (runs_view (method rq)).
  - pose proof (view_function_ok ep g c) as (_ & Hc & _).
    by destruct (view_function ep g c).
  - by destruct (String.eqb (method rq) "OPTIONS").
Qed.

Lemma step_count_inv (c0 : Z) (m : Machine) (i : nat) :
  count_inv c0 m -> count_inv c0 (step m i).
Proof.
  intros (Hc & Hlow & Hall). unfold step.
  destruct (threads m !! i) as [t|] eqn:Ht; [|done].
  pose proof (proj1 (Forall_lookup _ _) Hall i t Ht) as Htmp.
  simpl in Htmp.
  pose proof (total_insert past_store (threads m) i t) as Hins.
  unfold step_thread. destruct (pc t) as [|tmp| |r] eqn:Hpc.
  - (* the read *)
    assert (past_store t = 0) as Hw by (unfold past_store; by rewrite Hpc).
    specialize (Hins (at_pc t (AtStore (request_count (globals m)))) Ht).
    change (past_store (at_pc t (AtStore (request_count (globals m)))))
      with 0 in Hins.
    unfold count_inv; simpl. rewrite Hins, Hw.
    replace (total past_store (threads m) - 0 + 0)
      with (total past_store (threads m)) by lia.
    split_and!; [lia | lia | done |].
    apply Forall_insert; [done|]. by intros tmp [= <-].
  - (* the write *)
    specialize (Htmp tmp eq_refl).
    assert (past_store t = 0) as Hw by (unfold past_store; by rewrite Hpc).
    specialize (Hins (at_pc t AtDispatch) Ht).
    change (past_store (at_pc t AtDispatch)) with 1 in Hins.
    unfold count_inv; simpl. rewrite Hins, Hw.
    split_and!; [lia | lia | lia |].
    apply Forall_insert; [|intros tmp' [=]].
    eapply Forall_impl; [exact Hall|]. intros t' H' tmp' Ht'.
    specialize (H' tmp' Ht'). simpl in H'. lia.
  - (* the view and the handlers *)
    pose proof (dispatch_and_handle_request_count (globals m) (req t) (clk t))
      as Hrc.
    assert (past_store t = 1) as Hw by (unfold past_store; by rewrite Hpc).
    destruct (dispatch_and_handle (globals m) (req t) (clk t)) as [g' r].
    specialize (Hins (at_pc t (Done r)) Ht).
    change (past_store (at_pc t (Done r))) with 1 in Hins.
    unfold count_inv; simpl in *. rewrite Hins, Hw, Hrc.
    replace (total past_store (threads m) - 1 + 1)
      with (total past_store (threads m)) by lia.
    split_and!; [lia | lia | done |].
    apply Forall_insert; [done | intros tmp' [=]].
  - (* nothing left to do *)
    unfold count_inv; simpl. by rewrite list_insert_id.
Qed.

Lemma run_count_inv (c0 : Z) (schedule : list nat) (m : Machine) :
  count_inv c0 m -> count_inv c0 (run m schedule).
Proof.
  revert m. induction schedule as [|i schedule IH]; intros m Hm; [done|].
  apply IH. by apply step_count_inv.
Qed.

Lemma total_past_store_bounds (l : list Thread) :
  0 <= total past_store l <= Z.of_nat (length l).
Proof.
  induction l as [|t l IH]; simpl total; simpl length; [lia|].
  unfold past_store at 1 3. destruct (pc t); lia.
Qed.

Lemma spawn_count_inv (g : Globals) (reqs : list (Request * Clock)) :
  count_inv (request_count g) (spawn g reqs).
Proof.
  assert (total past_store (map fresh reqs) = 0) as Hz.
  { induction reqs as [|rc reqs IH]; simpl; [done|]. by rewrite IH. }
  unfold count_inv, spawn; simpl. rewrite Hz.
  split_and!; [lia | lia | lia |].
  apply Forall_map, Forall_true. intros rc tmp [=].
Qed.

(** X13: no schedule counts a request twice or uncounts one.  Whatever
    the interleaving of the threads, [request_count] never falls below
    its value before the requests and never exceeds that value plus
    the number of requests; once every request is answered and there
    was at least one, it has moved by at least one.  Increments can be
    lost, they cannot be duplicated. *)
Theorem concurrent_count_bounds (g : Globals)
        (reqs : list (Request * Clock)) (schedule : list nat) :
  request_count g
  <= request_count (globals (run (spawn g reqs) schedule))
  <= request_count g + Z.of_nat (length reqs) /\
  (all_answered (run (spawn g reqs) schedule) = true -> reqs ≠ [] ->
   request_count g + 1
   <= request_count (globals (run (spawn g reqs) schedule))).
Proof.
  destruct (run_count_inv (request_count g) schedule (spawn g reqs)
              (spawn_count_inv g reqs)) as (Hc & Hlow & _).
  pose proof (total_past_store_bounds (threads (run (spawn g reqs) schedule)))
    as Hb.
  pose proof (run_length schedule (spawn g reqs)) as Hlen.
  unfold spawn at 2 in Hlen. simpl in Hlen. rewrite length_map in Hlen.
  rewrite Hlen in Hb. split; [lia|].
  intros Hall Hne. apply Hlow.
  apply total_answered_all in Hall as [_ ->]. rewrite Hlen.
  destruct reqs; [done | simpl; lia].
Qed.

Lemma concurrent_count_bounds_witness :
  request_count sample_globals + 1
  <= request_count
       (globals (run (spawn sample_globals
                        [ (GET "/api/test", sample_clock);
                          (GET "/nonexistent", sample_clock) ])
                     [0; 1; 0; 1; 0; 1]%nat))
  <= request_count sample_globals + 2.
Proof.
  destruct (concurrent_count_bounds sample_globals
              [ (GET "/api/test", sample_clock);
                (GET "/nonexistent", sample_clock) ]
              [0; 1; 0; 1; 0; 1]%nat) as [Hb Hl].
  split; [apply Hl; [reflexivity | discriminate] | apply Hb].
Defined.





(** X15: [test_concurrent_requests] passes whenever its requests are
    all answered.  For any number of requests, any clock values and
    any schedule of the threads after which every thread has its
    response, every status the test compares with 200 is 200. *)
Theorem test_concurrent_requests_passes (g : Globals) (clks : list Clock)
        (schedule : list nat) :
  all_answered (run (spawn g (Tests.make_requests clks)) schedule) = true ->
  (Tests.test_concurrent_requests g clks schedule).2 = true.
Proof.
  intros Hall. unfold Tests.test_concurrent_requests; simpl.
  assert (Forall api_test_thread
            (threads (run (spawn g (Tests.make_requests clks)) schedule)))
    as Hinv.
  { apply run_api_test. unfold spawn, Tests.make_requests; simpl.
    rewrite !Forall_map. apply Forall_true.
    intros c. split; [done | intros r; discriminate]. }
  unfold all_answered in Hall. rewrite forallb_forall in Hall.
  apply forallb_forall. intros t Ht.
  specialize (Hall t Ht).
  apply list_elem_of_In in Ht.
  pose proof (proj1 (Forall_forall _ _) Hinv t Ht) as [_ H200].
  unfold answered in Hall. unfold response_of.
  destruct (pc t) as [| | |r]; try discriminate Hall.
  rewrite (H200 r eq_refl). reflexivity.
Qed.

Lemma test_concurrent_requests_passes_witness :
  (Tests.test_concurrent_requests sample_globals
     (replicate 20 sample_clock) (sequential_from 0 20)).2 = true.
Proof.
  apply (test_concurrent_requests_passes sample_globals
           (replicate 20 sample_clock) (sequential_from 0 20)).
  vm_compute. reflexivity.
Defined.

End Schedules.

(* ===================================================================== *)
(** ** The tests of the endpoints *)
(* ===================================================================== *)

(** X16: the four tests of single endpoints, [test_health_endpoint],
    [test_api_info_endpoint], [test_api_test_endpoint] and
    [test_404_handling], pass against the application in every state
    and at every clock value, in any order and any number of times:
    none of their assertions depends on the counters, on the
    environment or on the time. *)
Theorem endpoint_tests_pass (g : Globals) (clk : Clock) :
  (Tests.test_health_endpoint g clk).2 = true /\
  (Tests.test_api_info_endpoint g clk).2 = true /\
  (Tests.test_api_test_endpoint g clk).2 = true /\
  (Tests.test_404_handling g clk).2 = true.
Proof.
  unfold Tests.test_health_endpoint, Tests.test_api_info_endpoint,
    Tests.test_api_test_endpoint, Tests.test_404_handling.
  rewrite (full_dispatch_GET clk g "/health" ep_health) by reflexivity.
  rewrite (full_dispatch_GET clk g "/api/info" ep_api_info) by reflexivity.
  rewrite (full_dispatch_GET clk g "/api/test" ep_api_test) by reflexivity.
  rewrite (full_dispatch_unmatched clk g (GET "/nonexistent"))
    by reflexivity.
  split_and!; reflexivity.
Qed.

(* ===================================================================== *)
(** ** Which responses depend on the requests served before *)
(* ===================================================================== *)

Lemma json_views_same_rest (g g' : Globals) (clk : Clock) :
  same_rest g g' ->
  (full_dispatch_request g (GET "/health") clk).2
  = (full_dispatch_request g' (GET "/health") clk).2 /\
  (full_dispatch_request g (GET "/api/info") clk).2
  = (full_dispatch_request g' (GET "/api/info") clk).2.
Proof.
  intros (Hs & _ & He & Hv & _).
  enter_view "/health" ep_health. enter_view "/api/info" ep_api_info.
  unfold health, api_info; simpl. by rewrite Hs, He, Hv.
Qed.

(** X17: the answers of [/health] and [/api/info] do not depend on the
    requests served before.  After any two sequences of requests from
    the same state, a GET request at the same clock values gets the same
    response from each of the two endpoints: they read the start time,
    the environment and the interpreter version, which no request
    changes, and never the counters. *)
Theorem health_and_info_ignore_history (g : Globals)
        (reqs1 reqs2 : list (Request * Clock)) (clk : Clock) :
  (full_dispatch_request (serve g reqs1).1 (GET "/health") clk).2
  = (full_dispatch_request (serve g reqs2).1 (GET "/health") clk).2 /\
  (full_dispatch_request (serve g reqs1).1 (GET "/api/info") clk).2
  = (full_dispatch_request (serve g reqs2).1 (GET "/api/info") clk).2.
Proof.
  destruct (serve_counts reqs1 g) as (_ & H1 & _).
  destruct (serve_counts reqs2 g) as (_ & H2 & _).
  destruct (json_views_same_rest g (serve g reqs1).1 clk H1) as [Ha1 Hb1].
  destruct (json_views_same_rest g (serve g reqs2).1 clk H2) as [Ha2 Hb2].
  split; congruence.
Qed.
